(** * examples/mixed_project/script.py

    A shallow embedding of the script and the properties of its specification.

    - A Python [str] is a [string]: a finite sequence of characters.  The
      script only concatenates text and never inspects a character, so a
      character outside ASCII is carried as the bytes of its encoding.
    - A Python [int] is a [Z] (unbounded, as in Python).
    - Standard output is the sequence of texts handed to [print], oldest
      first; every Python call is a computation that threads that sequence. *)

From Stdlib Require Import String Ascii List ZArith Lia Bool.
From Stdlib Require Import DecimalString.
Import ListNotations.

Local Open Scope string_scope.
Local Open Scope Z_scope.

(** ** The interpreter's state and computations *)

(** What the process has printed: one entry per call of [print], in the
    order of the calls. *)
Definition console := list string.

(** A call: it reads and may extend the console, and returns a value. *)
Definition IO (A : Type) : Type := console -> A * console.

Definition ret {A} (a : A) : IO A := fun c => (a, c).

Definition bind {A B} (m : IO A) (k : A -> IO B) : IO B :=
  fun c => let (a, c') := m c in k a c'.

Declare Scope io_scope.
Delimit Scope io_scope with io.
Notation "x <- m ;; k" := (bind m (fun x => k))
  (at level 61, m at next level, right associativity) : io_scope.
Notation "m ;; k" := (bind m (fun _ => k))
  (at level 61, right associativity) : io_scope.
Local Open Scope io_scope.

(** The value a call returns and the console it leaves. *)
Definition result {A} (m : IO A) (c : console) : A := fst (m c).
Definition after {A} (m : IO A) (c : console) : console := snd (m c).

(** The line terminator [print] appends. *)
Definition newline : string := String "010"%char EmptyString.

(** The characters that reached standard output. *)
Definition rendered (c : console) : string :=
  fold_right (fun s rest => s ++ newline ++ rest) "" c.

(** [print(s)] for a [str] argument. *)
Definition print (s : string) : IO unit := fun c => (tt, (c ++ [s])%list).

(** ** Python's text protocols, as far as the script uses them *)

(** [repr(x)]. *)
Class Repr (A : Type) := repr : A -> string.

(** [format(x, "")]: what a replacement field [{x}] of an f-string
    contributes. *)
Class Format (A : Type) := format : A -> string.

(** An [int] prints in decimal, with a leading minus sign when negative. *)
#[global] Instance repr_int : Repr Z :=
  fun z => NilZero.string_of_int (Z.to_int z).

(** A [str] formats as itself. *)
#[global] Instance format_str : Format string := fun s => s.

(** A [list] formats as the [repr] of its elements, separated by a comma and
    a space, between square brackets. *)
#[global] Instance format_list {A} `{Repr A} : Format (list A) :=
  fun l => "[" ++ String.concat ", " (map repr l) ++ "]".

(** [range(n)]: the integers from 0 up to, and excluding, [n]; empty when
    [n] is not positive. *)
Definition range (n : Z) : list Z := map Z.of_nat (seq 0 (Z.to_nat n)).

(** ** The script *)

(** [def greet(name): return f"Hello, {name}!"] *)
Definition greet (name : string) : IO string :=
  ret ("Hello, " ++ format name ++ "!").

(** [[i * 2 for i in range(5)]], the comprehension evaluated in [main]. *)
Definition sequence_generator : IO (list Z) :=
  ret (map (fun i => i * 2) (range 5)).

(** The body of [main], with the literal passed to [greet] as a parameter.
    It returns the value its local [numbers] holds when the body ends. *)
Definition main_with (name : string) : IO (list Z) :=
  print "Hello from Python!" ;;
  g <- greet name ;;
  print g ;;
  numbers <- sequence_generator ;;
  print ("Numbers: " ++ format numbers) ;;
  ret numbers.

(** [def main()]: the body with the literal ["World"]; it returns [None]. *)
Definition main : IO unit :=
  main_with "World" ;; ret tt.

(** The module's last statement, [if __name__ == "__main__": main()]. *)
Definition script (module_name : string) : IO unit :=
  if (module_name =? "__main__")%string then main else ret tt.

(** Running a computation [n] times in a row, collecting what each run
    returns. *)
Fixpoint times {A} (n : nat) (m : IO A) : IO (list A) :=
  match n with
  | O => ret []
  | S n' => a <- m ;; l <- times n' m ;; ret (a :: l)
  end.

(** A text that reads as a greeting: it opens with ["Hello, "] and closes
    with ["!"], the two not overlapping. *)
Definition ends_with_bang (s : string) : bool :=
  match get (String.length s - 1)%nat s with
  | Some ch => Ascii.eqb ch "!"%char
  | None => false
  end.

Definition is_greeting (s : string) : bool :=
  prefix "Hello, " s && ends_with_bang s && (8 <=? String.length s)%nat.

(** The three texts [main] prints. *)
Definition main_output : list string :=
  ["Hello from Python!"; "Hello, World!"; "Numbers: [0, 2, 4, 6, 8]"].

(** ** Running the script on concrete inputs *)

Example greet_World : result (greet "World") [] = "Hello, World!".
Proof. reflexivity. Qed.

Example greet_special :
  result (greet (String "195"%char (String "169"%char " {x}!"))) ["seen"]
  = "Hello, " ++ String "195"%char (String "169"%char " {x}!") ++ "!".
Proof. reflexivity. Qed.

Example sequence_generator_value :
  sequence_generator ["seen"] = ([0; 2; 4; 6; 8], ["seen"]).
Proof. reflexivity. Qed.

Example script_imported : script "script" ["seen"] = (tt, ["seen"]).
Proof. reflexivity. Qed.

Example main_run : main [] = (tt, main_output).
Proof. reflexivity. Qed.

Example main_stream :
  rendered (after main []) =
  "Hello from Python!" ++ newline ++ "Hello, World!" ++ newline
  ++ "Numbers: [0, 2, 4, 6, 8]" ++ newline.
Proof. reflexivity. Qed.

Example repr_negative : repr (-12) = "-12".
Proof. reflexivity. Qed.

Example range_nonpositive : range 0 = [] /\ range (-3) = [].
Proof. split; reflexivity. Qed.

(** ** Laws of the computations *)

Lemma bind_ret {A B} (a : A) (k : A -> IO B) (c : console) :
  bind (ret a) k c = k a c.
Proof. reflexivity. Qed.

Lemma bind_run {A B} (m : IO A) (k : A -> IO B) (c : console) :
  bind m k c = k (result m c) (after m c).
Proof. unfold bind, result, after. destruct (m c); reflexivity. Qed.

Lemma bind_assoc {A B C} (m : IO A) (k : A -> IO B) (h : B -> IO C)
      (c : console) :
  bind (bind m k) h c = bind m (fun a => bind (k a) h) c.
Proof. unfold bind. destruct (m c); reflexivity. Qed.

(** [print] adds its text after everything printed so far, so a position in
    the console is a point in time. *)
Lemma print_appends (s : string) (c : console) :
  print s c = (tt, (c ++ [s])%list).
Proof. reflexivity. Qed.

(** ** Texts *)

Lemma length_append (s t : string) :
  String.length (s ++ t) = (String.length s + String.length t)%nat.
Proof. induction s as [|ch s IH]; simpl; [|rewrite IH]; reflexivity. Qed.

Lemma append_assoc (s t u : string) : (s ++ t) ++ u = s ++ t ++ u.
Proof. induction s as [|ch s IH]; simpl; [|rewrite IH]; reflexivity. Qed.

(** A closing character can be cancelled. *)
Lemma append_char_inj (ch : ascii) (a b : string) :
  a ++ String ch "" = b ++ String ch "" -> a = b.
Proof.
  revert b. induction a as [|x a IH]; intros [|y b] E; simpl in E.
  - reflexivity.
  - injection E as _ E. destruct b; discriminate E.
  - injection E as _ E. destruct a; discriminate E.
  - injection E as -> E. f_equal. apply IH, E.
Qed.

(** The last character of a text that was closed with [ch] is [ch]. *)
Lemma get_closing (ch : ascii) (s : string) :
  get (String.length s) (s ++ String ch "") = Some ch.
Proof.
  change (String.length s) with (0 + String.length s)%nat.
  rewrite <- append_correct2. reflexivity.
Qed.

Lemma rendered_app (c d : console) :
  rendered (c ++ d)%list = rendered c ++ rendered d.
Proof.
  induction c as [|s c IH]; simpl; [reflexivity|].
  rewrite IH, !append_assoc. reflexivity.
Qed.

(** ** What each function of the script computes *)

Lemma greet_run (name : string) (c : console) :
  greet name c = ("Hello, " ++ name ++ "!", c).
Proof. reflexivity. Qed.

(** The comprehension of [main], over a range of any size: position [j]
    holds [j * 2], and there are as many positions as the range has. *)
Lemma doubled_range_nth (n : Z) (j : nat) :
  nth_error (map (fun i => i * 2) (range n)) j =
  if (j <? Z.to_nat n)%nat then Some (Z.of_nat j * 2) else None.
Proof.
  unfold range. rewrite !nth_error_map, nth_error_seq.
  destruct (j <? Z.to_nat n)%nat; reflexivity.
Qed.

Lemma doubled_range_length (n : Z) :
  List.length (map (fun i => i * 2) (range n)) = Z.to_nat n.
Proof. unfold range. rewrite !length_map, length_seq. reflexivity. Qed.

Lemma sequence_generator_run (c : console) :
  sequence_generator c = (map (fun i => i * 2) (range 5), c).
Proof. reflexivity. Qed.

Lemma main_with_run (name : string) (c : console) :
  main_with name c =
  (map (fun i => i * 2) (range 5),
   (c ++ ["Hello from Python!"; ("Hello, " ++ name ++ "!")%string;
          "Numbers: [0, 2, 4, 6, 8]"])%list).
Proof.
  unfold main_with, bind, print, greet, sequence_generator, ret.
  rewrite <- !app_assoc. reflexivity.
Qed.

Lemma main_run_from (c : console) : main c = (tt, (c ++ main_output)%list).
Proof.
  unfold main. rewrite bind_run. unfold result, after.
  rewrite main_with_run. reflexivity.
Qed.

(** The list [main] binds to [numbers], position by position. *)
Lemma numbers_nth (name : string) (c : console) (j : nat) :
  nth_error (result (main_with name) c) j =
  if (j <? 5)%nat then Some (Z.of_nat j * 2) else None.
Proof.
  unfold result. rewrite main_with_run. cbn [fst].
  rewrite doubled_range_nth. reflexivity.
Qed.

Lemma numbers_length (name : string) (c : console) :
  List.length (result (main_with name) c) = 5%nat.
Proof.
  unfold result. rewrite main_with_run. cbn [fst].
  rewrite doubled_range_length. reflexivity.
Qed.

(** A computation that returns the same value from every console returns it
    on each of [n] runs in a row. *)
Lemma times_constant {A} (m : IO A) (v : A) :
  (forall c, result m c = v) ->
  forall n c, result (times n m) c = repeat v n.
Proof.
  intros Hm n. induction n as [|n IH]; intros c; [reflexivity|].
  unfold result in *. simpl. rewrite !bind_run. unfold result, after.
  simpl. rewrite Hm, IH. reflexivity.
Qed.

Lemma prefix_nil (s : string) : prefix "" s = true.
Proof. destruct s; reflexivity. Qed.

(** Whatever the name, the text [greet] builds reads as a greeting. *)
Lemma is_greeting_hello (name : string) :
  is_greeting ("Hello, " ++ name ++ "!") = true.
Proof.
  unfold is_greeting. rewrite !andb_true_iff. repeat split.
  - simpl. apply prefix_nil.
  - unfold ends_with_bang.
    rewrite <- (append_assoc "Hello, " name "!").
    replace (String.length (("Hello, " ++ name) ++ "!") - 1)%nat
      with (String.length ("Hello, " ++ name)).
    + rewrite get_closing. reflexivity.
    + rewrite (length_append ("Hello, " ++ name) "!"). simpl. lia.
  - apply Nat.leb_le. rewrite !length_append. simpl. lia.
Qed.

(** ** The properties of the specification *)

(** C1. For every character sequence [name], the empty one and those with
    special or non-ASCII characters included, [greet(name)] returns exactly
    the text ["Hello, "] followed by [name] followed by ["!"]. *)
Theorem greet_returns_hello_name_bang :
  forall (name : string) (c : console),
    result (greet name) c = "Hello, " ++ name ++ "!".
Proof. intros name c. unfold result. rewrite greet_run. reflexivity. Qed.

(** C2. The comprehension of [main] always yields exactly [[0, 2, 4, 6, 8]],
    and that is the list [main] binds to [numbers]: it has the five positions
    0..4, position [i] holds [i * 2], and every one of any number of
    evaluations in a row, of the comprehension or of the whole body, yields
    that same list. *)
Theorem sequence_generator_fixed :
  (forall c : console, sequence_generator c = ([0; 2; 4; 6; 8], c))
  /\ (forall (name : string) (c : console),
        result (main_with name) c = [0; 2; 4; 6; 8])
  /\ (forall (name : string) (c : console) (i : nat),
        nth_error (result (main_with name) c) i =
        if (i <? 5)%nat then Some (Z.of_nat i * 2) else None)
  /\ (forall (n : nat) (c : console),
        result (times n sequence_generator) c = repeat [0; 2; 4; 6; 8] n)
  /\ (forall (n : nat) (name : string) (c : console),
        result (times n (main_with name)) c = repeat [0; 2; 4; 6; 8] n).
Proof.
  assert (Hmain : forall (name : string) (c : console),
             result (main_with name) c = [0; 2; 4; 6; 8]).
  { intros name c. unfold result. rewrite main_with_run. reflexivity. }
  split; [reflexivity|]. split; [exact Hmain|].
  split; [apply numbers_nth|]. split.
  - intros n c. apply times_constant. reflexivity.
  - intros n name c. apply times_constant. apply Hmain.
Qed.

(** C3. Run by a fresh process, [main] prints exactly the three lines
    "Hello from Python!", "Hello, World!" and "Numbers: [0, 2, 4, 6, 8]", in
    that order, and returns normally, and that is what the module does when
    it is run as a program; run after earlier output, [main] adds exactly
    those three lines. *)
Theorem main_prints_three_lines :
  main [] =
  (tt, ["Hello from Python!"; "Hello, World!"; "Numbers: [0, 2, 4, 6, 8]"])
  /\ script "__main__" [] = main []
  /\ rendered (after main []) =
     "Hello from Python!" ++ newline ++ "Hello, World!" ++ newline
     ++ "Numbers: [0, 2, 4, 6, 8]" ++ newline
  /\ (forall c : console,
        main c =
        (tt, (c ++ ["Hello from Python!"; "Hello, World!";
                    "Numbers: [0, 2, 4, 6, 8]"])%list)
        /\ rendered (after main c) =
           rendered c ++ "Hello from Python!" ++ newline
           ++ "Hello, World!" ++ newline
           ++ "Numbers: [0, 2, 4, 6, 8]" ++ newline).
Proof.
  split; [reflexivity|]. split; [reflexivity|]. split; [reflexivity|].
  intros c. split; [apply main_run_from|].
  unfold after. rewrite main_run_from. simpl snd.
  rewrite rendered_app. reflexivity.
Qed.

(** C4. [greet] is a pure, deterministic function: two invocations on equal
    names return equal texts, whatever has been printed before either, and an
    invocation leaves the console, hence the output stream, as it found
    it. *)
Theorem greet_pure_deterministic :
  forall (a b : string) (c1 c2 : console),
    a = b ->
    result (greet a) c1 = result (greet b) c2
    /\ after (greet a) c1 = c1
    /\ rendered (after (greet a) c1) = rendered c1.
Proof.
  intros a b c1 c2 <-. unfold result, after. rewrite !greet_run.
  repeat split.
Qed.

Lemma greet_pure_deterministic_witness :
  "World" = "World"
  /\ result (greet "World") [] = result (greet "World") ["Hello from Python!"]
  /\ after (greet "World") [] = []
  /\ rendered (after (greet "World") []) = rendered [].
Proof.
  split; [reflexivity|].
  apply (greet_pure_deterministic "World" "World" [] ["Hello from Python!"]).
  reflexivity.
Defined.

(** C5. [greet] has no error condition: on every character sequence, the
    empty one included, it returns, leaving the console alone, the greeting
    of that very name, ["Hello, "] followed by the name followed by ["!"],
    and that text reads as a greeting; [greet("")] returns ["Hello, !"]. *)
Theorem greet_no_error :
  (forall (name : string) (c : console),
      greet name c = ("Hello, " ++ name ++ "!", c)
      /\ is_greeting (result (greet name) c) = true)
  /\ (forall c : console, greet "" c = ("Hello, !", c)).
Proof.
  split.
  - intros name c. split.
    + apply greet_run.
    + unfold result. rewrite greet_run. cbn [fst]. apply is_greeting_hello.
  - intros c. rewrite greet_run. reflexivity.
Qed.

(** C6. Two runs of [main] in a row print two identical copies of the three
    lines, and what the second run adds is what a run on a fresh console
    prints: nothing is carried over from the first. *)
Theorem main_twice_identical :
  (forall c : console,
      (main ;; main) c =
      (tt, (c ++ ["Hello from Python!"; "Hello, World!";
                  "Numbers: [0, 2, 4, 6, 8]"]
              ++ ["Hello from Python!"; "Hello, World!";
                  "Numbers: [0, 2, 4, 6, 8]"])%list))
  /\ (forall c : console,
        after main (after main c) = (after main c ++ after main [])%list)
  /\ rendered (after (main ;; main) []) =
     rendered (after main []) ++ rendered (after main []).
Proof.
  split; [|split].
  - intros c. rewrite bind_run. unfold result, after.
    rewrite !main_run_from. simpl snd. unfold main_output.
    rewrite <- app_assoc. reflexivity.
  - intros c. unfold after. rewrite !main_run_from. reflexivity.
  - reflexivity.
Qed.

(** C7. The list [main] computes always has exactly 5 elements, and it does
    not depend on the name handed to [greet]: with any two names, from any
    two consoles, the body computes the same list. *)
Theorem numbers_length_independent_of_name :
  (forall (name : string) (c : console),
      List.length (result (main_with name) c) = 5%nat)
  /\ (forall (name1 name2 : string) (c1 c2 : console),
        result (main_with name1) c1 = result (main_with name2) c2).
Proof.
  split.
  - apply numbers_length.
  - intros name1 name2 c1 c2. unfold result. rewrite !main_with_run.
    reflexivity.
Qed.

(** C8. The order of the printed lines is the order of the program: in every
    run of [main], whatever was printed before it, the run leaves the earlier
    entries alone and adds exactly three, "Hello from Python!" first, the
    greeting second and the "Numbers: ..." line third; wherever those texts
    stand among the entries of the run, the first comes before the second
    and the second before the third. *)
Theorem main_output_order :
  forall c0 : console,
    let c := after main c0 in
    let n := List.length c0 in
    firstn n c = c0
    /\ List.length c = (n + 3)%nat
    /\ nth_error c n = Some "Hello from Python!"
    /\ nth_error c (n + 1) = Some "Hello, World!"
    /\ nth_error c (n + 2) = Some "Numbers: [0, 2, 4, 6, 8]"
    /\ (forall i j k : nat,
          (n <= i)%nat -> (n <= j)%nat -> (n <= k)%nat ->
          nth_error c i = Some "Hello from Python!" ->
          nth_error c j = Some "Hello, World!" ->
          nth_error c k = Some "Numbers: [0, 2, 4, 6, 8]" ->
          (i < j)%nat /\ (j < k)%nat).
Proof.
  intros c0 c n. subst c n. unfold after. rewrite main_run_from. simpl snd.
  unfold main_output.
  split; [|split; [|split; [|split; [|split]]]].
  - rewrite firstn_app, firstn_all, Nat.sub_diag. simpl firstn.
    apply app_nil_r.
  - rewrite length_app. reflexivity.
  - rewrite nth_error_app2, Nat.sub_diag by lia. reflexivity.
  - rewrite nth_error_app2 by lia.
    replace (List.length c0 + 1 - List.length c0)%nat with 1%nat by lia.
    reflexivity.
  - rewrite nth_error_app2 by lia.
    replace (List.length c0 + 2 - List.length c0)%nat with 2%nat by lia.
    reflexivity.
  - intros i j k Hi Hj Hk E1 E2 E3.
    rewrite nth_error_app2 in E1, E2, E3 by lia.
    destruct (i - List.length c0)%nat as [|[|[|i']]] eqn:Ei;
      [|discriminate E1|discriminate E1|destruct i'; discriminate E1].
    destruct (j - List.length c0)%nat as [|[|[|j']]] eqn:Ej;
      [discriminate E2| |discriminate E2|destruct j'; discriminate E2].
    destruct (k - List.length c0)%nat as [|[|[|k']]] eqn:Ek;
      [discriminate E3|discriminate E3| |destruct k'; discriminate E3].
    lia.
Qed.

Lemma main_output_order_witness :
  (1 <= 1)%nat /\ (1 <= 2)%nat /\ (1 <= 3)%nat
  /\ nth_error (after main ["earlier"]) 1 = Some "Hello from Python!"
  /\ nth_error (after main ["earlier"]) 2 = Some "Hello, World!"
  /\ nth_error (after main ["earlier"]) 3 = Some "Numbers: [0, 2, 4, 6, 8]"
  /\ (1 < 2)%nat /\ (2 < 3)%nat.
Proof.
  repeat (split; [first [lia | reflexivity]|]).
  apply (proj2 (proj2 (proj2 (proj2 (proj2
           (main_output_order ["earlier"]))))) 1%nat 2%nat 3%nat);
    first [simpl; lia | reflexivity].
Defined.

(** C9. [greet] is injective: two names with equal greetings are equal, so
    distinct names get distinct greetings; and a greeting is always 8
    characters longer than its name. *)
Theorem greet_injective :
  (forall (a b : string) (c1 c2 : console),
      result (greet a) c1 = result (greet b) c2 -> a = b)
  /\ (forall (a b : string) (c1 c2 : console),
        a <> b -> result (greet a) c1 <> result (greet b) c2)
  /\ (forall (name : string) (c : console),
        String.length (result (greet name) c) = (String.length name + 8)%nat).
Proof.
  assert (Hinj : forall (a b : string) (c1 c2 : console),
             result (greet a) c1 = result (greet b) c2 -> a = b).
  { intros a b c1 c2. unfold result. rewrite !greet_run. simpl.
    intros E. injection E as E. apply append_char_inj in E. exact E. }
  split; [exact Hinj|]. split.
  - intros a b c1 c2 Hne E. apply Hne. apply (Hinj a b c1 c2 E).
  - intros name c. unfold result. rewrite greet_run. cbn [fst].
    rewrite !length_append. simpl. lia.
Qed.

Lemma greet_injective_witness :
  result (greet "World") [] = result (greet "World") ["earlier"]
  /\ "World" = "World"
  /\ "World" <> "world"
  /\ result (greet "World") [] <> result (greet "world") [].
Proof.
  split; [reflexivity|].
  split; [apply (proj1 greet_injective "World" "World" [] ["earlier"]);
          reflexivity|].
  split; [discriminate|].
  apply (proj1 (proj2 greet_injective) "World" "world" [] []). discriminate.
Defined.

(** C10. The list [main] binds to [numbers] goes up in steps of 2 and holds
    even numbers only: at every two adjacent positions [j], [j + 1] of the
    list the second element is the first plus 2, hence greater, and the
    element at every position [j] leaves remainder 0 when divided by 2. *)
Theorem numbers_step_two_even :
  forall (name : string) (c : console),
    let numbers := result (main_with name) c in
    (forall j : nat,
        (j + 1 < List.length numbers)%nat ->
        exists x y : Z,
          nth_error numbers j = Some x /\ nth_error numbers (j + 1) = Some y
          /\ y = x + 2 /\ x < y)
    /\ (forall j : nat,
          (j < List.length numbers)%nat ->
          exists x : Z, nth_error numbers j = Some x /\ x mod 2 = 0).
Proof.
  intros name c numbers. subst numbers. rewrite numbers_length. split.
  - intros j Hj. exists (Z.of_nat j * 2), (Z.of_nat (j + 1) * 2).
    rewrite !numbers_nth.
    destruct (Nat.ltb_spec j 5); [|lia].
    destruct (Nat.ltb_spec (j + 1) 5); [|lia].
    repeat split; lia.
  - intros j Hj. exists (Z.of_nat j * 2).
    rewrite numbers_nth. destruct (Nat.ltb_spec j 5); [|lia].
    split; [reflexivity|]. apply Z.mod_mul. lia.
Qed.

Lemma numbers_step_two_even_witness :
  (1 + 1 < List.length (result (main_with "World") []))%nat
  /\ (exists x y : Z,
        nth_error (result (main_with "World") []) 1 = Some x
        /\ nth_error (result (main_with "World") []) (1 + 1) = Some y
        /\ y = x + 2 /\ x < y)
  /\ (4 < List.length (result (main_with "World") []))%nat
  /\ (exists x : Z,
        nth_error (result (main_with "World") []) 4 = Some x /\ x mod 2 = 0).
Proof.
  split; [vm_compute; lia|].
  split; [apply (proj1 (numbers_step_two_even "World" []) 1%nat);
          vm_compute; lia|].
  split; [vm_compute; lia|].
  apply (proj2 (numbers_step_two_even "World" []) 4%nat); vm_compute; lia.
Defined.

(** ** Further properties of the script *)

(** A text splits at a prefix it has. *)
Lemma prefix_split (p s : string) :
  prefix p s = true -> exists t : string, s = p ++ t.
Proof.
  revert s. induction p as [|a p IH]; intros s Hp.
  - exists s. reflexivity.
  - destruct s as [|b s]; [discriminate Hp|]. simpl in Hp.
    destruct (ascii_dec a b) as [->|]; [|discriminate Hp].
    destruct (IH s Hp) as [t ->]. exists t. reflexivity.
Qed.

(** A text splits before its last character. *)
Lemma last_char_split (ch : ascii) (t : string) :
  get (String.length t - 1) t = Some ch ->
  exists n : string, t = n ++ String ch "".
Proof.
  induction t as [|x t IH]; simpl; [discriminate|].
  rewrite Nat.sub_0_r. destruct t as [|y t].
  - simpl. intros E. injection E as ->. exists "". reflexivity.
  - intros E. simpl in E, IH. rewrite Nat.sub_0_r in IH.
    destruct (IH E) as [n ->]. exists (String x n). reflexivity.
Qed.

(** Reading [length a] characters from the start of [a ++ b] gives [a]. *)
Lemma substring_append (a b : string) :
  substring 0 (String.length a) (a ++ b) = a.
Proof. induction a as [|x a IH]; simpl; [destruct b|rewrite IH]; reflexivity. Qed.

Lemma app_same_nil {A} (l d : list A) : (l ++ d)%list = l -> d = [].
Proof.
  intros E. apply (f_equal (@List.length A)) in E. rewrite length_app in E.
  destruct d; [reflexivity|simpl in E; lia].
Qed.

(** X1. The guard on the module's last line: the module prints something
    exactly when its name is ["__main__"]; under that name it does what
    [main] does, and under any other name, as when it is imported, it leaves
    the console as it found it. *)
Theorem script_guard :
  forall (module_name : string) (c : console),
    (after (script module_name) c = c <-> module_name <> "__main__")
    /\ (module_name = "__main__" -> script module_name c = main c)
    /\ (module_name <> "__main__" -> script module_name c = (tt, c)).
Proof.
  intros m c. unfold after, script.
  destruct (String.eqb_spec m "__main__") as [->|Hne].
  - split; [|split]; [|reflexivity|intros H; exfalso; apply H; reflexivity].
    rewrite main_run_from. cbn [snd]. split.
    + intros E. apply app_same_nil in E. discriminate E.
    + intros H. exfalso. apply H. reflexivity.
  - split; [|split]; [|intros E; contradiction|reflexivity].
    split; [intros _; exact Hne|reflexivity].
Qed.

Lemma script_guard_witness :
  after (script "script") ["seen"] = ["seen"]
  /\ "script" <> "__main__"
  /\ "__main__" = "__main__"
  /\ script "__main__" ["seen"] = main ["seen"]
  /\ script "script" ["seen"] = (tt, ["seen"]).
Proof.
  split; [reflexivity|].
  split; [apply (proj1 (proj1 (script_guard "script" ["seen"])));
          reflexivity|].
  split; [reflexivity|].
  split; [apply (proj1 (proj2 (script_guard "__main__" ["seen"])));
          reflexivity|].
  apply (proj2 (proj2 (script_guard "script" ["seen"]))). discriminate.
Defined.

(** X2. [greet] carries the name verbatim: whatever characters the name
    holds, the greeting reads ["Hello, "] in its first 7 characters, then the
    name, unchanged and in full, then ["!"] as its last character. *)
Theorem greet_name_read_back :
  forall (name : string) (c : console),
    let g := result (greet name) c in
    substring 0 7 g = "Hello, "
    /\ substring 7 (String.length name) g = name
    /\ substring (7 + String.length name) 1 g = "!"
    /\ String.length g = (7 + String.length name + 1)%nat.
Proof.
  intros name c g. subst g. unfold result. rewrite greet_run. cbn [fst].
  split; [|split; [|split]].
  - simpl. destruct (name ++ "!"); reflexivity.
  - simpl. apply substring_append.
  - cbn [append substring Nat.add]. clear c.
    induction name as [|x name IH]; [reflexivity|]. simpl. exact IH.
  - rewrite !length_append. simpl. lia.
Qed.

(** X3. [main] keeps no state: [n] calls in a row, after any earlier output,
    each return [None] and together add [n] copies of the three lines, so
    the console grows by [3 * n] entries. *)
Theorem main_n_times :
  forall (n : nat) (c : console),
    times n main c =
    (repeat tt n,
     (c ++ concat (repeat ["Hello from Python!"; "Hello, World!";
                           "Numbers: [0, 2, 4, 6, 8]"] n))%list)
    /\ List.length (after (times n main) c) = (List.length c + 3 * n)%nat.
Proof.
  assert (Hrun : forall (n : nat) (c : console),
             times n main c =
             (repeat tt n, (c ++ concat (repeat main_output n))%list)).
  { induction n as [|n IH]; intros c.
    - simpl. unfold ret. rewrite app_nil_r. reflexivity.
    - cbn [times]. rewrite bind_run. unfold result, after.
      rewrite main_run_from. cbn [fst snd]. rewrite bind_run.
      unfold result, after. rewrite IH. cbn [fst snd repeat concat].
      unfold ret. rewrite <- app_assoc. reflexivity. }
  intros n c. split; [apply Hrun|].
  unfold after. rewrite Hrun. cbn [snd]. rewrite length_app. f_equal.
  clear. induction n as [|n IH]; [reflexivity|].
  cbn [repeat concat]. rewrite length_app, IH. simpl. lia.
Qed.

(** X4. The texts [greet] can return are exactly those that open with
    ["Hello, "], close with ["!"] and have at least 8 characters: every
    greeting passes that test, and every text that passes it is the greeting
    of some name. *)
Theorem greet_image :
  forall (g : string) (c : console),
    is_greeting g = true <-> exists name : string, result (greet name) c = g.
Proof.
  intros g c. split.
  - unfold is_greeting. rewrite !andb_true_iff. intros [[Hp He] Hl].
    apply prefix_split in Hp. destruct Hp as [t ->].
    apply Nat.leb_le in Hl. rewrite length_append in Hl.
    change (String.length "Hello, ") with 7%nat in Hl.
    unfold ends_with_bang in He. rewrite length_append in He.
    change (String.length "Hello, ") with 7%nat in He.
    replace (7 + String.length t - 1)%nat
      with ((String.length t - 1) + String.length "Hello, ")%nat in He
      by (simpl; lia).
    rewrite <- append_correct2 in He.
    destruct (get (String.length t - 1) t) as [ch|] eqn:Eg;
      [|discriminate He].
    apply Ascii.eqb_eq in He. subst ch.
    apply last_char_split in Eg. destruct Eg as [name ->].
    exists name. unfold result. rewrite greet_run. reflexivity.
  - intros [name <-]. unfold result. rewrite greet_run. cbn [fst].
    apply is_greeting_hello.
Qed.

Lemma greet_image_witness :
  is_greeting "Hello, World!" = true
  /\ (exists name : string, result (greet name) ["seen"] = "Hello, World!")
  /\ is_greeting (result (greet "") []) = true.
Proof.
  split; [reflexivity|].
  split; [apply (proj1 (greet_image "Hello, World!" ["seen"])); reflexivity|].
  apply (proj2 (greet_image (result (greet "") []) [])).
  exists "". reflexivity.
Defined.
